(** * cts-caseload: the package's top-level module and its one function

    The repository is a package skeleton.  Its only source module,
    [src/cts_caseload/__init__.py], re-exports [example_function] from the
    submodule [core], loads a version string with a fallback, and sets
    author metadata and [__all__].  Its only test calls
    [example_function(1, 2)] and expects [3].

    The embedding has three layers:
    - Python values and the binary [+] of the interpreter (the dispatch of
      [PyNumber_Add]: number slots first, then sequence concatenation),
      with [int], [bool], binary64 [float], the built-in sequences, and
      objects of user classes that define [__add__];
    - a small state-and-exception monad [Py] over the globals of the module
      being executed, with [from . import], [try/except Exception] and
      assignment;
    - the statements of [__init__.py] and of the test, written in that monad.

    Two limits of the embedding.  Running a module leaves a namespace or
    raises, and that is all it does: module code that reaches back into
    the package importing it (through [sys.modules]) is not described.
    The [__add__] of a user class is described by the assignments it makes
    and by its outcome, both fixed; it does not read the state. *)

From Stdlib Require Import ZArith.
From Stdlib Require Import Floats.SpecFloat.
From stdpp Require Import base gmap strings list.

Set Warnings "-register-all".

Local Open Scope Z_scope.
Local Open Scope string_scope.

(** ** Types and exceptions *)

Module Exn.

Inductive pytype : Type :=
| TNoneType | TBool | TInt | TFloat | TStr | TList | TTuple
| TFunction | TModule
| TObject (cls : string).

#[global] Instance pytype_eq_dec : EqDecision pytype.
Proof. solve_decision. Defined.

Inductive exn_class : Type :=
| BaseException
| SystemExit
| KeyboardInterrupt
| GeneratorExit
| Exception
| ArithmeticError
| OverflowError
| AssertionError
| AttributeError
| ImportError
| ModuleNotFoundError
| NameError
| OSError
| RuntimeError
| SyntaxError
| TypeError
| ValueError.

#[global] Instance exn_class_eq_dec : EqDecision exn_class.
Proof. solve_decision. Defined.

(** The direct base class in the built-in hierarchy. *)
Definition base (c : exn_class) : option exn_class :=
  match c with
  | BaseException => None
  | SystemExit | KeyboardInterrupt | GeneratorExit | Exception =>
      Some BaseException
  | ModuleNotFoundError => Some ImportError
  | OverflowError => Some ArithmeticError
  | _ => Some Exception
  end.

Fixpoint ancestors (depth : nat) (c : exn_class) : list exn_class :=
  c :: match depth with
       | O => []
       | S d => match base c with
                | Some p => ancestors d p
                | None => []
                end
       end.

(** The hierarchy above is three levels deep below [BaseException]. *)
Definition mro (c : exn_class) : list exn_class := ancestors 3 c.

Definition issubclass (c d : exn_class) : bool := bool_decide (d ∈ mro c).

(** What an exception instance carries besides its class. *)
Inductive detail : Type :=
| UnsupportedOperand (op : string) (l r : pytype)
| CanOnlyConcatenate (self other : pytype)
| IntTooLargeForFloat
| NoModuleNamed (name : string)
| CannotImportName (name from : string)
| Message (msg : string).

#[global] Instance detail_eq_dec : EqDecision detail.
Proof. solve_decision. Defined.

Record exn : Type := mk_exn { exc_class : exn_class; exc_detail : detail }.

#[global] Instance exn_eq_dec : EqDecision exn.
Proof. solve_decision. Defined.

Definition isinstance (e : exn) (c : exn_class) : bool :=
  issubclass (exc_class e) c.

Inductive outcome (A : Type) : Type :=
| Returns (x : A)
| Raises (e : exn).
Arguments Returns {A} x.
Arguments Raises {A} e.

End Exn.
Export Exn.

(** ** Values *)

Module Value.

(** What the [__add__] of a user class comes to. *)
Inductive add_result (V : Type) : Type :=
| AddReturns (v : V)
| AddRaises (e : exn)
| AddNotImplemented.
Arguments AddReturns {V} v.
Arguments AddRaises {V} e.
Arguments AddNotImplemented {V}.

(** [VObject cls add] is an instance of the class [cls].  [add] is [None]
    when the class defines no [__add__] (and no [__radd__]); otherwise it
    gives the global assignments the method makes, in order, and what it
    comes to. *)
Inductive value : Type :=
| VNone
| VBool (b : bool)
| VInt (n : Z)
| VFloat (x : spec_float)
| VStr (s : string)
| VList (xs : list value)
| VTuple (xs : list value)
| VFunction (qualname : string)
| VModule (name : string)
| VObject (cls : string)
          (add : option (list (string * value) * add_result value)).

Definition type_of (v : value) : pytype :=
  match v with
  | VNone => TNoneType
  | VBool _ => TBool
  | VInt _ => TInt
  | VFloat _ => TFloat
  | VStr _ => TStr
  | VList _ => TList
  | VTuple _ => TTuple
  | VFunction _ => TFunction
  | VModule _ => TModule
  | VObject cls _ => TObject cls
  end.

(** [bool] is a subclass of [int]: [True] counts as 1 and [False] as 0. *)
Definition as_long (v : value) : option Z :=
  match v with
  | VInt n => Some n
  | VBool true => Some 1
  | VBool false => Some 0
  | _ => None
  end.


(** Whether the value's class defines [__add__] in Python code. *)
Definition has_add (v : value) : bool :=
  match v with
  | VObject _ (Some _) => true
  | _ => false
  end.

(** A finite float against an integer, exactly: the float is
    [(-1)^s * m * 2^e]. *)
Definition float_eq_Z (x : spec_float) (n : Z) : bool :=
  match x with
  | S754_zero _ => Z.eqb n 0
  | S754_finite s m e =>
      let sm := if s then Z.neg m else Z.pos m in
      if Z.leb 0 e then Z.eqb (sm * 2 ^ e) n
      else Z.eqb sm (n * 2 ^ (- e))
  | S754_infinity _ | S754_nan => false
  end.

(** [r == n] for an [int] literal [n]: numbers compare by value, a float
    exactly; a value of any other type here is not equal to an [int]. *)
Definition eq_int (r : value) (n : Z) : bool :=
  match r with
  | VFloat x => float_eq_Z x n
  | _ => match as_long r with
         | Some m => Z.eqb m n
         | None => false
         end
  end.

End Value.
Export Value.

(** ** The state-and-exception monad of module execution *)

Module PyMonad.

(** The program state is a global namespace: that of the running module. *)
Abbreviation namespace := (gmap string value).

Definition Py (A : Type) : Type := namespace → outcome A * namespace.

#[global] Instance Py_ret : MRet Py := fun A x g => (Returns x, g).

#[global] Instance Py_bind : MBind Py := fun A B k m g =>
  match m g with
  | (Returns x, g') => k x g'
  | (Raises e, g') => (Raises e, g')
  end.

Definition raise {A} (e : exn) : Py A := fun g => (Raises e, g).

Definition lift {A} (r : outcome A) : Py A := fun g => (r, g).

(** [name = v] at module level. *)
Definition assign (name : string) (v : value) : Py unit :=
  fun g => (Returns tt, <[name := v]> g).

(** [try: body / except Exception: handler].  The handler runs in the state
    the body left behind; an exception outside [Exception] passes through. *)
Definition try_except_Exception {A} (body handler : Py A) : Py A :=
  fun g =>
    match body g with
    | (Returns x, g') => (Returns x, g')
    | (Raises e, g') =>
        if isinstance e Exception then handler g' else (Raises e, g')
    end.

(** [assert cond]. *)
Definition assert (cond : bool) : Py unit :=
  if cond then mret tt else raise (mk_exn AssertionError (Message "")).

End PyMonad.
Export PyMonad.

(** ** The interpreter's binary [+] *)

Module Add.

(** A slot call comes to a value, to [NotImplemented] ([None] here), or
    raises. *)

(** The number slot of [int] (inherited by [bool]). *)
Definition long_add (v w : value) : option value :=
  match as_long v, as_long w with
  | Some x, Some y => Some (VInt (x + y))
  | _, _ => None
  end.

(** [float] is binary64. *)
Definition float_prec : Z := 53.
Definition float_emax : Z := 1024.

(** An [int] as a [float]: rounded to nearest, ties to even; an [int]
    beyond the range of [float] is an [OverflowError]. *)
Definition PyLong_AsDouble (n : Z) : outcome spec_float :=
  match binary_normalize float_prec float_emax n 0 false with
  | S754_infinity _ => Raises (mk_exn OverflowError IntTooLargeForFloat)
  | x => Returns x
  end.

(** The operand conversion of the [float] slot: a [float] is taken as it
    is, an [int] is converted, anything else makes the slot give up. *)
Definition convert_to_double (v : value) : option (outcome spec_float) :=
  match v with
  | VFloat x => Some (Returns x)
  | _ => match as_long v with
         | Some n => Some (PyLong_AsDouble n)
         | None => None
         end
  end.

Definition float_add (v w : value) : outcome (option value) :=
  match convert_to_double v with
  | None => Returns None
  | Some (Raises e) => Raises e
  | Some (Returns a) =>
      match convert_to_double w with
      | None => Returns None
      | Some (Raises e) => Raises e
      | Some (Returns b) =>
          Returns (Some (VFloat (SFadd float_prec float_emax a b)))
      end
  end.

(** The assignments of a user method, in order. *)
Definition write_all (ws : list (string * value)) (g : namespace)
  : namespace :=
  foldl (fun acc kv => <[kv.1 := kv.2]> acc) g ws.

(** The slot of a class with a Python-level [__add__]: the method of the
    left operand runs; the classes described here have no [__radd__], so
    with such an object on the right only the slot gives up. *)
Definition slot_add (v w : value) : Py (option value) :=
  match v with
  | VObject _ (Some (ws, res)) =>
      fun g =>
        match res with
        | AddReturns x => (Returns (Some x), write_all ws g)
        | AddRaises e => (Raises e, write_all ws g)
        | AddNotImplemented => (Returns None, write_all ws g)
        end
  | _ => mret None
  end.

(** Slots are compared by identity in the dispatch, so they are named. *)
Inductive nb_slot : Type := slot_long_add | slot_float_add | slot_nb_add.

#[global] Instance nb_slot_eq_dec : EqDecision nb_slot.
Proof. solve_decision. Defined.

Definition nb_add (v : value) : option nb_slot :=
  match v with
  | VInt _ | VBool _ => Some slot_long_add
  | VFloat _ => Some slot_float_add
  | VObject _ (Some _) => Some slot_nb_add
  | _ => None
  end.

Definition call_nb (f : nb_slot) (v w : value) : Py (option value) :=
  match f with
  | slot_long_add => mret (long_add v w)
  | slot_float_add => lift (float_add v w)
  | slot_nb_add => slot_add v w
  end.

(** The sequence slot: concatenation with an operand of the same kind, a
    [TypeError] of its own otherwise. *)
Definition concat_error (v w : value) : exn :=
  mk_exn TypeError (CanOnlyConcatenate (type_of v) (type_of w)).

Definition unicode_concat (v w : value) : outcome value :=
  match v, w with
  | VStr s, VStr t => Returns (VStr (s +:+ t))
  | _, _ => Raises (concat_error v w)
  end.

Definition list_concat (v w : value) : outcome value :=
  match v, w with
  | VList xs, VList ys => Returns (VList (xs ++ ys))
  | _, _ => Raises (concat_error v w)
  end.

Definition tuple_concat (v w : value) : outcome value :=
  match v, w with
  | VTuple xs, VTuple ys => Returns (VTuple (xs ++ ys))
  | _, _ => Raises (concat_error v w)
  end.

Definition sq_concat (t : pytype) : option (value → value → outcome value) :=
  match t with
  | TStr => Some unicode_concat
  | TList => Some list_concat
  | TTuple => Some tuple_concat
  | _ => None
  end.

(** [binary_op1]: the left operand's slot, then the right operand's unless
    it is the very same slot.  (A right operand whose type is a proper
    subclass of the left one would go first; [bool] under [int] shares the
    slot of [int], and the classes of objects here are unrelated, so that
    case does not arise.) *)
Definition binary_op1 (v w : value) : Py (option value) :=
  let slotv := nb_add v in
  let slotw := if decide (nb_add w = slotv) then None else nb_add w in
  let right : Py (option value) :=
    match slotw with
    | Some f => call_nb f v w
    | None => mret None
    end in
  match slotv with
  | Some f =>
      x ← call_nb f v w;
      match x with
      | Some r => mret (Some r)
      | None => right
      end
  | None => right
  end.

Definition binop_type_error (v w : value) : exn :=
  mk_exn TypeError (UnsupportedOperand "+" (type_of v) (type_of w)).

Definition PyNumber_Add (v w : value) : Py value :=
  x ← binary_op1 v w;
  match x with
  | Some r => mret r
  | None =>
      match sq_concat (type_of v) with
      | Some concat => lift (concat v w)
      | None => raise (binop_type_error v w)
      end
  end.

(** Which pairs of operand types [+] is defined on, read off the language
    reference rather than off the dispatch above. *)
Definition numeric_type (t : pytype) : bool :=
  match t with TInt | TBool | TFloat => true | _ => false end.

Definition supports_add (s t : pytype) : bool :=
  match s, t with
  | TStr, TStr | TList, TList | TTuple, TTuple => true
  | _, _ => numeric_type s && numeric_type t
  end.

(** An [int] that has no [float]. *)
Definition too_large_for_float (n : Z) : bool :=
  match PyLong_AsDouble n with
  | Raises _ => true
  | Returns _ => false
  end.

(** A [float] meeting an [int] that has no [float]. *)
Definition overflow_pair (v w : value) : bool :=
  match v, w with
  | VFloat _, _ => default false (too_large_for_float <$> as_long w)
  | _, VFloat _ => default false (too_large_for_float <$> as_long v)
  | _, _ => false
  end.

End Add.
Export Add.

(** ** The import system *)

Module Import_.

(** What running a module's source does: it leaves a namespace, or it
    raises. *)
Inductive module_run : Type :=
| Executes (ns : gmap string value)
| Fails (e : exn).

(** What the finder answers for a module name: a package directory with
    its [__init__] file, a module file, or a directory without
    [__init__], which is a namespace package. *)
Inductive module_spec : Type :=
| RegularPackage (dir init_file : string)
| ModuleFile (file : string)
| NamespacePackage (dir : string).

(** The world a package is imported in: what the finder answers for the
    name [name] searched in the directory [dir], and what running each
    file does.  The finder is the interpreter's and the installation's
    business (sources, bytecode, extension modules, namespace
    directories); a world states its answers. *)
Record world : Type := mk_world {
  finder : string → string → option module_spec;
  run : string → module_run
}.

Definition find_spec (w : world) (dir name : string) : option module_spec :=
  finder w dir name.

(** The attributes a namespace package has once loaded: those the import
    system sets, and no others. *)
Definition namespace_module (qual : string) : gmap string value :=
  {[ "__name__" := VStr qual;
     "__doc__" := VNone;
     "__package__" := VStr qual;
     "__loader__" := VObject "NamespaceLoader" None;
     "__spec__" := VObject "ModuleSpec" None;
     "__file__" := VNone;
     "__path__" := VObject "_NamespacePath" None ]}.

(** Loading what the finder found, under the qualified name [qual]. *)
Definition load (w : world) (qual : string) (s : module_spec) : module_run :=
  match s with
  | RegularPackage _ f => run w f
  | ModuleFile f => run w f
  | NamespacePackage _ => Executes (namespace_module qual)
  end.

(** The directory a package's submodules are searched in; a plain module
    has none. *)
Definition search_dir (s : module_spec) : option string :=
  match s with
  | RegularPackage d _ => Some d
  | ModuleFile _ => None
  | NamespacePackage d => Some d
  end.

(** [from .name import attr] in the body of the package [pkg], whose
    directory is [dir]; the state is the package's own namespace.

    The submodule is found and loaded; once loaded it becomes an
    attribute of its parent package, which binds [name] in the state.
    The attribute is then taken from the module.  When the module is a
    package and lacks the attribute, a submodule of that name is imported
    in its place; that there is none is not an error of its own, the
    import then fails on the missing name. *)
Definition import_from (w : world) (pkg dir name attr : string) : Py unit :=
  let qual := pkg +:+ "." +:+ name in
  let cannot := mk_exn ImportError (CannotImportName attr qual) in
  match find_spec w dir name with
  | None => raise (mk_exn ModuleNotFoundError (NoModuleNamed qual))
  | Some s =>
      match load w qual s with
      | Fails e => raise e
      | Executes ns =>
          assign name (VModule qual);;
          match ns !! attr with
          | Some v => assign attr v
          | None =>
              match search_dir s with
              | None => raise cannot
              | Some sub_dir =>
                  let sub_qual := qual +:+ "." +:+ attr in
                  let not_found :=
                    mk_exn ModuleNotFoundError (NoModuleNamed sub_qual) in
                  match find_spec w sub_dir attr with
                  | None => raise cannot
                  | Some s' =>
                      match load w sub_qual s' with
                      | Fails e =>
                          if decide (e = not_found) then raise cannot
                          else raise e
                      | Executes _ => assign attr (VModule sub_qual)
                      end
                  end
              end
          end
      end
  end.

(** The path-based finder over a source tree: the files that exist, by
    path from the repository root, and the directories that exist without
    holding any of these files.  A package directory comes first, then a
    source file, then a directory without [__init__.py].  (Extension
    modules and bytecode-only modules have no place in a source tree.) *)
Definition is_dir (files dirs : gset string) (d : string) : bool :=
  bool_decide (d ∈ dirs)
  || existsb (String.prefix (d +:+ "/")) (elements files).

Definition path_finder (files dirs : gset string) (dir name : string)
  : option module_spec :=
  let d := dir +:+ "/" +:+ name in
  if bool_decide (d +:+ "/__init__.py" ∈ files)
  then Some (RegularPackage d (d +:+ "/__init__.py"))
  else if bool_decide (d +:+ ".py" ∈ files)
  then Some (ModuleFile (d +:+ ".py"))
  else if is_dir files dirs d then Some (NamespacePackage d)
  else None.

End Import_.
Export Import_.

(** ** The package *)

Module Package.

(** Modelled from the spec: [cts_caseload/core.py], the module the package
    takes [example_function] from, is not among the source files.
    Section 4.1 of the specification: given two values [a] and [b] the
    function returns [a + b]; an error of the addition is propagated from
    the underlying operation and not handled. *)
Definition example_function (a b : value) : Py value :=
  PyNumber_Add a b.

Definition package : string := "cts_caseload".
Definition package_dir : string := "src/cts_caseload".

Definition nl : string := String (Ascii.ascii_of_nat 10) EmptyString.

Definition __doc__ : value :=
  VStr (nl +:+ "Top level API (:mod:`cts_caseload`)" +:+ nl +:+
        "======================================================" +:+ nl).

Definition __author__ : value := VStr "Stan. M".
Definition __email__ : value := VStr "mwagichimu@gmail.com".
Definition __all__ : value := VList [VStr "example_function"; VStr "__version__"].

(** Lines 8 to 11 of [__init__.py]. *)
Definition version_block (w : world) : Py unit :=
  try_except_Exception
    (import_from w package package_dir "_version" "__version__")
    (assign "__version__" (VStr "999")).

(** The module body, with the two metadata constants as parameters so that
    runs differing only in them can be compared. *)
Definition init_with (author email : value) (w : world) : Py unit :=
  assign "__doc__" __doc__;;
  import_from w package package_dir "core" "example_function";;
  version_block w;;
  assign "__author__" author;;
  assign "__email__" email;;
  assign "__all__" __all__.

(** [src/cts_caseload/__init__.py]. *)
Definition init (w : world) : Py unit := init_with __author__ __email__ w.

(** The source files of the repository; every directory of it holds one. *)
Definition repo_files : gset string :=
  {[ "src/cts_caseload/__init__.py"; "tests/test_cts_caseload.py" ]}.

Definition repo (r : string → module_run) : world :=
  mk_world (path_finder repo_files ∅) r.

End Package.
Export Package.

(** ** The test module *)

Module Tests.

(** [from cts_caseload import example_function]: the package body runs on
    the globals [pkg0] its loader prepared; the name is then taken from the
    package's namespace into the importer's. *)
Definition import_from_package (w : world) (pkg0 : namespace) (attr : string)
  : Py unit :=
  match init w pkg0 with
  | (Raises e, _) => raise e
  | (Returns _, ns) =>
      match ns !! attr with
      | Some v => assign attr v
      | None => raise (mk_exn ImportError (CannotImportName attr package))
      end
  end.

(** The module level of [tests/test_cts_caseload.py] ([pytest] itself is
    outside the repository). *)
Definition test_module (w : world) (pkg0 : namespace) : Py unit :=
  import_from_package w pkg0 "example_function".

(** The fixture. *)
Definition response : value * value := (VInt 1, VInt 2).

Definition test_example_function (response : value * value) : Py unit :=
  r ← example_function response.1 response.2;
  assert (eq_int r 3).

End Tests.
Export Tests.

(** ** Worlds to run the package in *)

Module Worlds.

(** The repository's tree together with further directories and further
    modules, each module given by its path and by what running it does. *)
Definition installed_in (dirs : gset string) (mods : gmap string module_run)
  : world :=
  mk_world (path_finder (repo_files ∪ dom mods) dirs)
           (fun path => default (Executes ∅) (mods !! path)).

Definition installed (mods : gmap string module_run) : world :=
  installed_in ∅ mods.

(** Modelled from the spec: the missing [core.py], as a module whose
    namespace holds the one function of section 4.1. *)
Definition core_module : module_run :=
  Executes {[ "example_function" :=
                VFunction "cts_caseload.core.example_function" ]}.

Definition version_module (v : value) : module_run :=
  Executes {[ "__version__" := v ]}.

(** A build of the package: [core.py] in place and a [_version.py] that
    behaves as [ver]. *)
Definition build (ver : module_run) : world :=
  installed {[ "src/cts_caseload/core.py" := core_module;
               "src/cts_caseload/_version.py" := ver ]}.

(** A build without any [_version.py]. *)
Definition build_unversioned : world :=
  installed {[ "src/cts_caseload/core.py" := core_module ]}.

(** Some values to call the function on: the float [1.0], an [int] beyond
    the range of [float], and an object whose [__add__] sets a global
    before it returns. *)
Definition float_one : value := VFloat (S754_finite false 4503599627370496 (-52)).

Definition huge_int : value := VInt (10 ^ 400).

Definition counting_object : value :=
  VObject "Counter" (Some ([("calls", VInt 1)], AddReturns (VInt 0))).

End Worlds.
Export Worlds.

(** ** Predicates of the statements below *)

Module Predicates.

(** A non-empty version string. *)
Definition nonempty (v : value) : bool :=
  match v with
  | VStr s => negb (bool_decide (s = ""))
  | _ => false
  end.

(** "The version string is non-empty" for a run of the version block from
    the globals [g] in the world [w]. *)
Definition version_nonempty (w : world) (g : namespace) : Prop :=
  ∀ g', version_block w g = (Returns tt, g') →
        ∃ v, g' !! "__version__" = Some v ∧ nonempty v = true.

(** "Every failure of the [_version] import ends in the default, and
    nothing propagates", for a run of the version block. *)
Definition fallback_on_every_failure (w : world) (g : namespace) : Prop :=
  ∀ e g1,
    import_from w package package_dir "_version" "__version__" g
    = (Raises e, g1) →
    (version_block w g).1 = Returns tt
    ∧ (version_block w g).2 !! "__version__" = Some (VStr "999").

(** "A type error is the only failure" of a call. *)
Definition only_type_errors (a b : value) (g : namespace) : Prop :=
  ∀ e, (example_function a b g).1 = Raises e → exc_class e = TypeError.

(** "The call leaves the program state unchanged". *)
Definition leaves_state (a b : value) (g : namespace) : Prop :=
  (example_function a b g).2 = g.

End Predicates.
Export Predicates.

(** * Properties *)

(** ** The binary [+] *)

Section AddFacts.

Implicit Types (v w : value) (g : namespace).

#[local] Arguments PyLong_AsDouble : simpl never.
#[local] Arguments SFadd : simpl never.


Lemma PyNumber_Add_numeric v w (x y : Z) g :
  as_long v = Some x → as_long w = Some y →
  PyNumber_Add v w g = (Returns (VInt (x + y)), g).
Proof.
  intros Hv Hw.
  destruct v as [|[]| | | | | | | |]; try discriminate Hv;
    destruct w as [|[]| | | | | | | |]; try discriminate Hw;
    injection Hv as <-; injection Hw as <-; reflexivity.
Qed.

(** The conversion of an [int] raises nothing but the overflow error. *)
Lemma PyLong_AsDouble_raises n e :
  PyLong_AsDouble n = Raises e → e = mk_exn OverflowError IntTooLargeForFloat.
Proof.
  unfold PyLong_AsDouble.
  destruct (binary_normalize _ _ _ _ _); congruence.
Qed.

Lemma too_large_for_float_spec n :
  too_large_for_float n = true
  ↔ PyLong_AsDouble n = Raises (mk_exn OverflowError IntTooLargeForFloat).
Proof.
  unfold too_large_for_float.
  destruct (PyLong_AsDouble n) as [x|e] eqn:Hn.
  - split; discriminate.
  - by rewrite (PyLong_AsDouble_raises _ _ Hn).
Qed.

(** The outcomes of [+] when the left operand's class has no [__add__] of
    its own: by the table of supported operand types, except that a float
    meeting an [int] beyond its range overflows.  The state is not
    touched. *)
Lemma PyNumber_Add_builtin v w g :
  has_add v = false →
  PyNumber_Add v w g =
  (if supports_add (type_of v) (type_of w)
   then if overflow_pair v w
        then Raises (mk_exn OverflowError IntTooLargeForFloat)
        else (PyNumber_Add v w ∅).1
   else (PyNumber_Add v w ∅).1,
   g)
  ∧ (supports_add (type_of v) (type_of w) = false →
     ∃ d, (PyNumber_Add v w ∅).1 = Raises (mk_exn TypeError d))
  ∧ (supports_add (type_of v) (type_of w) = true →
     overflow_pair v w = false →
     ∃ r, (PyNumber_Add v w ∅).1 = Returns r).
Proof.
  intros Hv.
  destruct v as [|[]|n|x|s|xs|xs|q|m|c [[ws res]|]]; try discriminate Hv;
    destruct w as [|[]|n'|x'|s'|xs'|xs'|q'|m'|c' [[ws' res']|]];
    unfold PyNumber_Add, binary_op1, mbind, Py_bind, mret, Py_ret, call_nb,
      lift, raise, overflow_pair, too_large_for_float, float_add,
      convert_to_double;
    cbn;
    repeat match goal with
      | |- context [PyLong_AsDouble ?k] =>
          let H := fresh "Hk" in
          destruct (PyLong_AsDouble k) as [?|?] eqn:H;
          [|apply PyLong_AsDouble_raises in H; subst]
      end;
    cbn;
    (split; [reflexivity|]); split; intros; try discriminate; eauto.
Qed.

End AddFacts.

(** ** [example_function] *)

Section ExampleFunction.

Implicit Types (a b : value) (g : namespace).




(** C4: on the pair [(1, 2)] of the test's fixture the function returns
    [3], and the assertion of [test_example_function] holds. *)
Theorem example_function_1_2 g :
  example_function (VInt 1) (VInt 2) g = (Returns (VInt 3), g)
  ∧ test_example_function response g = (Returns tt, g).
Proof. split; reflexivity. Qed.



(** Commutativity is a property of the numeric types only: on strings
    the same call concatenates, and the order shows. *)
Remark example_function_str_not_comm :
  example_function (VStr "a") (VStr "b") ∅
  ≠ example_function (VStr "b") (VStr "a") ∅.
Proof. discriminate. Qed.

(** C6, as stated, fails: a type error is not the only failure.  Adding
    an [int] beyond the range of [float] to the float [1.0], two numbers,
    raises [OverflowError]. *)
Lemma example_function_overflow_error :
  ¬ only_type_errors huge_int float_one ∅.
Proof.
  intros Honly.
  specialize (Honly (mk_exn OverflowError IntTooLargeForFloat)).
  discriminate Honly. vm_compute. reflexivity.
Qed.

(** C6, amended: on operands that do not support addition with each
    other the call fails with the [TypeError] of the underlying addition,
    handed on as it is.  It is not the only failure: a [float] added to
    an [int] beyond the range of [float] raises the [OverflowError] of
    the addition, handed on likewise.  For operands whose classes define
    no addition method of their own, as is the case of every built-in
    type, there is no other failure. *)
Theorem example_function_failure_modes a b g :
  has_add a = false → has_add b = false →
  (supports_add (type_of a) (type_of b) = false →
   ∃ d, PyNumber_Add a b g = (Raises (mk_exn TypeError d), g)
        ∧ example_function a b g = (Raises (mk_exn TypeError d), g))
  ∧ (overflow_pair a b = true →
     PyNumber_Add a b g
     = (Raises (mk_exn OverflowError IntTooLargeForFloat), g)
     ∧ example_function a b g
       = (Raises (mk_exn OverflowError IntTooLargeForFloat), g))
  ∧ (∀ e, (example_function a b g).1 = Raises e →
          (exc_class e = TypeError
           ∧ supports_add (type_of a) (type_of b) = false)
          ∨ (e = mk_exn OverflowError IntTooLargeForFloat
             ∧ overflow_pair a b = true)).
Proof.
  intros Ha _. unfold example_function.
  destruct (PyNumber_Add_builtin a b g Ha) as (Hrun & Hunsup & Hsup).
  rewrite Hrun. clear Hrun.
  destruct (supports_add (type_of a) (type_of b)) eqn:Hs.
  - split; [discriminate|]. split.
    + by intros ->.
    + intros e. destruct (overflow_pair a b) eqn:Ho; cbn [fst].
      * intros [= <-]. by right.
      * destruct (Hsup eq_refl eq_refl) as [r ->]. discriminate.
  - destruct (Hunsup eq_refl) as [d Hd]. rewrite Hd. split; [|split].
    + intros _. by exists d.
    + intros Ho. exfalso.
      destruct a as [|[]| | | | | | | |], b as [|[]| | | | | | | |];
        discriminate.
    + intros e [= <-]. by left.
Qed.

Lemma example_function_failure_modes_witness :
  (∃ d, PyNumber_Add (VInt 1) (VStr "2") ∅
        = (Raises (mk_exn TypeError d), ∅)
        ∧ example_function (VInt 1) (VStr "2") ∅
          = (Raises (mk_exn TypeError d), ∅))
  ∧ (PyNumber_Add float_one huge_int ∅
     = (Raises (mk_exn OverflowError IntTooLargeForFloat), ∅)
     ∧ example_function float_one huge_int ∅
       = (Raises (mk_exn OverflowError IntTooLargeForFloat), ∅)).
Proof.
  split.
  - apply (proj1 (example_function_failure_modes (VInt 1) (VStr "2") ∅
                    eq_refl eq_refl)).
    reflexivity.
  - apply (proj1 (proj2 (example_function_failure_modes float_one huge_int
                           ∅ eq_refl eq_refl))).
    vm_compute. reflexivity.
Defined.

(** C7, as stated, fails: the call runs the [__add__] of its left
    operand, and with it whatever that method does to the program
    state. *)
Lemma example_function_effect_of_operand :
  ¬ leaves_state counting_object (VInt 2) ∅.
Proof.
  unfold leaves_state. intros Hstate.
  assert ((example_function counting_object (VInt 2) ∅).2 !! "calls"
          = (∅ : namespace) !! "calls") as Hcalls by by rewrite Hstate.
  discriminate Hcalls.
Qed.

(** C7, amended: the function has no effect of its own.  For operands
    whose classes define no addition method of their own, as is the case
    of every built-in type, a call leaves the program state as it found
    it, and its outcome is the same in every state: it depends on the two
    arguments only. *)
Theorem example_function_pure a b g :
  has_add a = false → has_add b = false →
  (example_function a b g).2 = g
  ∧ ∀ g', (example_function a b g').1 = (example_function a b g).1.
Proof.
  intros Ha _. unfold example_function.
  destruct (PyNumber_Add_builtin a b g Ha) as (Hrun & _).
  split; [by rewrite Hrun|].
  intros g'.
  destruct (PyNumber_Add_builtin a b g' Ha) as (Hrun' & _).
  by rewrite Hrun, Hrun'.
Qed.

Lemma example_function_pure_witness :
  (example_function (VStr "a") float_one ∅).2 = ∅
  ∧ ∀ g', (example_function (VStr "a") float_one g').1
          = (example_function (VStr "a") float_one ∅).1.
Proof.
  apply (example_function_pure (VStr "a") float_one ∅); reflexivity.
Defined.

(** With a class that defines [__add__] on the left, the state changes
    by the assignments of that method. *)
Lemma example_function_effects cls ws res b g :
  (example_function (VObject cls (Some (ws, res))) b g).2 = write_all ws g.
Proof.
  unfold example_function, PyNumber_Add, binary_op1, mbind, Py_bind, mret,
    Py_ret, call_nb, lift, raise.
  destruct res as [x|e|], b as [|[]| | | | | | | |? [[]|]]; reflexivity.
Qed.

End ExampleFunction.

(** ** The import system and the version block *)

Section ImportFacts.

Implicit Types (w : world) (g : namespace) (e : exn).

(** A module that fails to load was a file that raised when run. *)
Lemma load_fails w qual s e :
  load w qual s = Fails e → ∃ file, run w file = Fails e.
Proof. destruct s; cbn; [eauto..|discriminate]. Qed.

(** A from-import binds the submodule and the name it asks for, or raises
    with at most the submodule bound. *)
Lemma import_from_cases w pkg dir name attr g :
  (∃ v, import_from w pkg dir name attr g
        = (Returns tt,
           <[attr := v]> (<[name := VModule (pkg +:+ "." +:+ name)]> g)))
  ∨ (∃ e, import_from w pkg dir name attr g = (Raises e, g))
  ∨ (∃ e, import_from w pkg dir name attr g
          = (Raises e, <[name := VModule (pkg +:+ "." +:+ name)]> g)).
Proof.
  unfold import_from, mbind, Py_bind, assign, raise.
  destruct (find_spec w dir name) as [s|]; [|right; left; by eexists].
  destruct (load w _ s) as [ns|e]; [|right; left; by eexists].
  destruct (ns !! attr) as [v|]; [left; by eexists|].
  destruct (search_dir s) as [sub_dir|]; [|right; right; by eexists].
  destruct (find_spec w sub_dir attr) as [s'|]; [|right; right; by eexists].
  destruct (load w _ s') as [?|e]; [left; by eexists|].
  case_decide; right; right; by eexists.
Qed.

(** Whatever a from-import raises is an import error of its own, inside
    [Exception], or what a file raised when run. *)
Lemma import_from_raises_origin w pkg dir name attr g e g1 :
  import_from w pkg dir name attr g = (Raises e, g1) →
  isinstance e Exception = true ∨ ∃ file, run w file = Fails e.
Proof.
  unfold import_from, mbind, Py_bind, assign, raise.
  destruct (find_spec w dir name) as [s|]; [|intros [= <- _]; by left].
  destruct (load w _ s) as [ns|e'] eqn:Hload;
    [|intros [= <- _]; right; by eapply load_fails].
  destruct (ns !! attr) as [v|]; [discriminate|].
  destruct (search_dir s) as [sub_dir|]; [|intros [= <- _]; by left].
  destruct (find_spec w sub_dir attr) as [s'|]; [|intros [= <- _]; by left].
  destruct (load w _ s') as [?|e'] eqn:Hload'; [discriminate|].
  case_decide; intros [= <- _]; [by left|].
  right; by eapply load_fails.
Qed.

Lemma import_from_missing w pkg dir name attr g :
  find_spec w dir name = None →
  import_from w pkg dir name attr g
  = (Raises (mk_exn ModuleNotFoundError (NoModuleNamed (pkg +:+ "." +:+ name))),
     g).
Proof. unfold import_from. by intros ->. Qed.

Lemma import_from_found w pkg dir name attr g s ns v :
  find_spec w dir name = Some s →
  load w (pkg +:+ "." +:+ name) s = Executes ns →
  ns !! attr = Some v →
  import_from w pkg dir name attr g
  = (Returns tt,
     <[attr := v]> (<[name := VModule (pkg +:+ "." +:+ name)]> g)).
Proof. unfold import_from. by intros -> -> ->. Qed.

(** The version block, by the outcome of its import. *)
Lemma version_block_returns w g g1 :
  import_from w package package_dir "_version" "__version__" g
  = (Returns tt, g1) →
  version_block w g = (Returns tt, g1).
Proof. unfold version_block, try_except_Exception. by intros ->. Qed.

Lemma version_block_fallback w g e g1 :
  import_from w package package_dir "_version" "__version__" g
  = (Raises e, g1) →
  isinstance e Exception = true →
  version_block w g = (Returns tt, <["__version__" := VStr "999"]> g1).
Proof.
  intros Himp Hexc.
  unfold version_block, try_except_Exception. by rewrite Himp, Hexc.
Qed.

Lemma version_block_passes w g e g1 :
  import_from w package package_dir "_version" "__version__" g
  = (Raises e, g1) →
  isinstance e Exception = false →
  version_block w g = (Raises e, g1).
Proof.
  intros Himp Hexc.
  unfold version_block, try_except_Exception. by rewrite Himp, Hexc.
Qed.

(** When the block completes it has bound [__version__], and besides it
    at most [_version]. *)
Lemma version_block_binds w g g' :
  version_block w g = (Returns tt, g') →
  ∃ v, g' = <["__version__" := v]> g
       ∨ g' = <["__version__" := v]>
                (<["_version" := VModule "cts_caseload._version"]> g).
Proof.
  destruct (import_from_cases w package package_dir "_version"
              "__version__" g) as [[v Hv]|[[e He]|[e He]]].
  - rewrite (version_block_returns _ _ _ Hv). intros [= <-].
    exists v. by right.
  - destruct (isinstance e Exception) eqn:Hexc.
    + rewrite (version_block_fallback _ _ _ _ He Hexc). intros [= <-].
      eexists. by left.
    + by rewrite (version_block_passes _ _ _ _ He Hexc).
  - destruct (isinstance e Exception) eqn:Hexc.
    + rewrite (version_block_fallback _ _ _ _ He Hexc). intros [= <-].
      eexists. by right.
    + by rewrite (version_block_passes _ _ _ _ He Hexc).
Qed.

(** What the block raises, a file raised when run, and it is outside
    [Exception]. *)
Lemma version_block_raises_inv w g e g' :
  version_block w g = (Raises e, g') →
  isinstance e Exception = false ∧ ∃ file, run w file = Fails e.
Proof.
  unfold version_block, try_except_Exception, assign.
  destruct (import_from _ _ _ _ _ _) as [[[]|e'] g1] eqn:Himp;
    [discriminate|].
  destruct (isinstance e' Exception) eqn:Hexc; [discriminate|].
  intros [= <- <-]. split; [done|].
  destruct (import_from_raises_origin _ _ _ _ _ _ _ _ Himp) as [Hin|Hrun];
    [congruence|done].
Qed.

(** The fallback, in terms of what the package then holds. *)
Lemma version_block_fallback_lookup w g e g1 :
  import_from w package package_dir "_version" "__version__" g
  = (Raises e, g1) →
  isinstance e Exception = true →
  (version_block w g).1 = Returns tt
  ∧ (version_block w g).2 !! "__version__" = Some (VStr "999").
Proof.
  intros Himp Hexc. rewrite (version_block_fallback _ _ _ _ Himp Hexc).
  split; [done|]. cbn [snd]. by rewrite lookup_insert_eq.
Qed.

End ImportFacts.

(** ** The package body *)

Section PackageFacts.

Implicit Types (w : world) (g : namespace) (e : exn).

(** The body of [__init__.py], statement by statement. *)
Lemma init_with_run au em w g :
  init_with au em w g =
  match import_from w package package_dir "core" "example_function"
          (<["__doc__" := __doc__]> g) with
  | (Raises e, g1) => (Raises e, g1)
  | (Returns _, g1) =>
      match version_block w g1 with
      | (Raises e, g2) => (Raises e, g2)
      | (Returns _, g2) =>
          (Returns tt,
           <["__all__" := __all__]>
             (<["__email__" := em]> (<["__author__" := au]> g2)))
      end
  end.
Proof.
  unfold init_with, mbind, Py_bind, assign.
  destruct (import_from _ _ _ _ _ _) as [[[]|e] g1]; [|reflexivity].
  destruct (version_block w g1) as [[[]|e] g2]; reflexivity.
Qed.

(** Without a [core] module the body stops at its first import. *)
Lemma init_with_core_missing au em w g :
  find_spec w package_dir "core" = None →
  init_with au em w g
  = (Raises (mk_exn ModuleNotFoundError (NoModuleNamed "cts_caseload.core")),
     <["__doc__" := __doc__]> g).
Proof.
  intros Hnone. rewrite init_with_run.
  by rewrite (import_from_missing _ package _ _ _ _ Hnone).
Qed.

(** C2: no file of the repository provides the submodule [core], so
    [example_function] is defined nowhere in it; with the repository's
    files alone the package body raises [ModuleNotFoundError] at its
    first import, whatever the files do when run, and so does the test
    module's import of the name from the package. *)
Theorem core_is_missing (r : string → module_run) (pkg0 g : namespace) :
  find_spec (repo r) package_dir "core" = None
  ∧ init (repo r) pkg0
    = (Raises (mk_exn ModuleNotFoundError (NoModuleNamed "cts_caseload.core")),
       <["__doc__" := __doc__]> pkg0)
  ∧ (init (repo r) pkg0).2 !! "example_function" = pkg0 !! "example_function"
  ∧ test_module (repo r) pkg0 g
    = (Raises (mk_exn ModuleNotFoundError (NoModuleNamed "cts_caseload.core")),
       g).
Proof.
  assert (find_spec (repo r) package_dir "core" = None) as Hnone
    by reflexivity.
  assert (init (repo r) pkg0
          = (Raises (mk_exn ModuleNotFoundError
                       (NoModuleNamed "cts_caseload.core")),
             <["__doc__" := __doc__]> pkg0)) as Hinit
    by apply (init_with_core_missing _ _ _ _ Hnone).
  split; [done|]. split; [done|]. split.
  - rewrite Hinit. cbn [snd]. by rewrite lookup_insert_ne.
  - unfold test_module, import_from_package. by rewrite Hinit.
Qed.

End PackageFacts.

(** ** The version string *)

Section VersionFacts.

Implicit Types (w : world) (g : namespace) (e : exn).

(** C3, as stated, fails: a [_version] module may define an empty
    [__version__], and the block takes it as it is. *)
Lemma version_may_be_empty :
  ¬ version_nonempty (build (version_module (VStr ""))) ∅.
Proof.
  intros Hne.
  destruct (Hne (version_block (build (version_module (VStr ""))) ∅).2)
    as (v & Hv & Hnon); [reflexivity|].
  vm_compute in Hv. injection Hv as <-. discriminate Hnon.
Qed.

(** C3, amended: whenever the version block completes, [__version__] is
    bound.  When the [_version] module is available and defines
    [__version__], that object is used as it is, empty or not, so the
    version is non-empty if that object is.  When [_version] is
    unavailable, its import failing with an exception of class
    [Exception], [__version__] falls back to the default ["999"], which
    is not empty. *)
Theorem version_used_or_default w g :
  (∀ g', version_block w g = (Returns tt, g') →
         is_Some (g' !! "__version__"))
  ∧ (∀ s ns v,
       find_spec w package_dir "_version" = Some s →
       load w "cts_caseload._version" s = Executes ns →
       ns !! "__version__" = Some v →
       (version_block w g).1 = Returns tt
       ∧ (version_block w g).2 !! "__version__" = Some v
       ∧ (nonempty v = true → version_nonempty w g))
  ∧ (∀ e g1,
       import_from w package package_dir "_version" "__version__" g
       = (Raises e, g1) →
       isinstance e Exception = true →
       (version_block w g).1 = Returns tt
       ∧ (version_block w g).2 !! "__version__" = Some (VStr "999")
       ∧ version_nonempty w g).
Proof.
  split; [|split].
  - intros g' [v [->| ->]]%version_block_binds;
      rewrite lookup_insert_eq; by eexists.
  - intros s ns v Hspec Hload Hns.
    pose proof (import_from_found w package _ _ _ g _ _ _ Hspec Hload Hns)
      as Himp.
    rewrite (version_block_returns _ _ _ Himp). cbn [fst snd].
    rewrite lookup_insert_eq. split; [done|]. split; [done|].
    intros Hnon g'. rewrite (version_block_returns _ _ _ Himp).
    intros [= <-]. exists v. by rewrite lookup_insert_eq.
  - intros e g1 Himp Hexc.
    destruct (version_block_fallback_lookup _ _ _ _ Himp Hexc) as [H1 H2].
    split; [done|]. split; [done|].
    intros g' Hblock. rewrite Hblock in H2. cbn [snd] in H2.
    by exists (VStr "999").
Qed.

Lemma version_used_or_default_witness :
  ((version_block (build (version_module (VStr "0.1.0"))) ∅).1 = Returns tt
   ∧ (version_block (build (version_module (VStr "0.1.0"))) ∅).2
     !! "__version__" = Some (VStr "0.1.0")
   ∧ version_nonempty (build (version_module (VStr "0.1.0"))) ∅)
  ∧ ((version_block build_unversioned ∅).1 = Returns tt
     ∧ (version_block build_unversioned ∅).2 !! "__version__"
       = Some (VStr "999")
     ∧ version_nonempty build_unversioned ∅)
  ∧ is_Some ((version_block build_unversioned ∅).2 !! "__version__").
Proof.
  split; [|split].
  - destruct (proj1 (proj2 (version_used_or_default
                              (build (version_module (VStr "0.1.0"))) ∅))
                (ModuleFile "src/cts_caseload/_version.py")
                {[ "__version__" := VStr "0.1.0" ]} (VStr "0.1.0"))
      as (H1 & H2 & H3); [reflexivity..|].
    split; [exact H1|]. split; [exact H2|]. apply H3. reflexivity.
  - apply (proj2 (proj2 (version_used_or_default build_unversioned ∅))
             (mk_exn ModuleNotFoundError
                (NoModuleNamed "cts_caseload._version")) ∅);
      reflexivity.
  - apply (proj1 (version_used_or_default build_unversioned ∅)).
    reflexivity.
Defined.

(** C10, as stated, fails: not every failure of the [_version] import
    ends in the default.  The handler names [Exception], so an interrupt
    raised while [_version] runs passes through the block and reaches
    the importer, [__version__] unset. *)
Lemma version_fallback_not_for_interrupt :
  ¬ fallback_on_every_failure
      (build (Fails (mk_exn KeyboardInterrupt (Message "")))) ∅.
Proof.
  intros Hall.
  destruct (Hall (mk_exn KeyboardInterrupt (Message "")) ∅) as [Hret _];
    [reflexivity|].
  discriminate Hret.
Qed.

(** C10, amended: the handler of the version block is [except Exception],
    so it takes every exception of that class the import of [_version]
    raises, a missing module being one case among them: the block then
    completes with [__version__] set to ["999"], and nothing reaches the
    importer.  (Exceptions outside [Exception] are not taken.) *)
Theorem version_fallback_catches_Exception w g e g1 :
  import_from w package package_dir "_version" "__version__" g
  = (Raises e, g1) →
  isinstance e Exception = true →
  (version_block w g).1 = Returns tt
  ∧ (version_block w g).2 !! "__version__" = Some (VStr "999").
Proof.
  intros Himp Hexc.
  unfold version_block, try_except_Exception, assign.
  rewrite Himp, Hexc. cbn [fst snd].
  split; [reflexivity|]. apply lookup_insert_eq.
Qed.

Lemma version_fallback_catches_Exception_witness :
  (version_block (build (Fails (mk_exn RuntimeError (Message "boom")))) ∅).1
  = Returns tt
  ∧ (version_block
       (build (Fails (mk_exn RuntimeError (Message "boom")))) ∅).2
    !! "__version__" = Some (VStr "999").
Proof.
  apply (version_fallback_catches_Exception
           (build (Fails (mk_exn RuntimeError (Message "boom")))) ∅
           (mk_exn RuntimeError (Message "boom")) ∅); reflexivity.
Defined.

(** The failures of the import that are the import system's own raise
    inside [Exception]: no module, and no such name in it. *)
Lemma import_errors_are_Exceptions name :
  isinstance (mk_exn ModuleNotFoundError (NoModuleNamed name)) Exception
  = true
  ∧ ∀ attr, isinstance (mk_exn ImportError (CannotImportName attr name))
              Exception = true.
Proof. split; [|intros attr]; reflexivity. Qed.

End VersionFacts.

(** ** The exported names and the metadata *)

Section SurfaceFacts.

Implicit Types (w : world) (g : namespace) (e : exn).

(** A completed run of the body, from the inside out: the three
    assignments that end it, over a namespace in which both imports have
    bound their names. *)
Lemma init_with_returns au em w g g' :
  init_with au em w g = (Returns tt, g') →
  ∃ f v g2,
    g' = <["__all__" := __all__]>
           (<["__email__" := em]> (<["__author__" := au]> g2))
    ∧ g2 !! "example_function" = Some f
    ∧ g2 !! "__version__" = Some v.
Proof.
  rewrite init_with_run.
  destruct (import_from_cases w package package_dir "core"
              "example_function" (<["__doc__" := __doc__]> g))
    as [[f ->]|[[e ->]|[e ->]]]; [|discriminate..].
  destruct (version_block w _) as [[[]|e] g2] eqn:Hver; [|discriminate].
  intros [= <-]. exists f.
  apply version_block_binds in Hver as [v [->| ->]]; exists v; eexists;
    (split; [reflexivity|]); split;
    by repeat (rewrite lookup_insert_ne by done);
       rewrite ?lookup_insert_eq.
Qed.

(** C8: [__all__] is the list of the two names [example_function] and
    [__version__], in that order; once the package body has run, the
    package's namespace holds that list under [__all__] and binds both
    names. *)
Theorem all_is_function_and_version w pkg0 g' :
  init w pkg0 = (Returns tt, g') →
  __all__ = VList [VStr "example_function"; VStr "__version__"]
  ∧ g' !! "__all__" = Some __all__
  ∧ is_Some (g' !! "example_function")
  ∧ is_Some (g' !! "__version__").
Proof.
  intros (f & v & g2 & -> & Hf & Hv)%init_with_returns.
  split; [reflexivity|]. split; [by rewrite lookup_insert_eq|].
  split.
  - exists f. by repeat (rewrite lookup_insert_ne by done).
  - exists v. by repeat (rewrite lookup_insert_ne by done).
Qed.

Lemma all_is_function_and_version_witness :
  __all__ = VList [VStr "example_function"; VStr "__version__"]
  ∧ (init build_unversioned ∅).2 !! "__all__" = Some __all__
  ∧ is_Some ((init build_unversioned ∅).2 !! "example_function")
  ∧ is_Some ((init build_unversioned ∅).2 !! "__version__").
Proof.
  apply (all_is_function_and_version build_unversioned ∅
           (init build_unversioned ∅).2).
  reflexivity.
Defined.




End SurfaceFacts.

(** * Further properties of the package body and of the test module *)

(** ** Failure of the package import *)

Section InitFailure.

Implicit Types (w : world) (g : namespace) (e : exn).

Lemma init_with_core_raises au em w g e g1 :
  import_from w package package_dir "core" "example_function"
    (<["__doc__" := __doc__]> g) = (Raises e, g1) →
  init_with au em w g = (Raises e, g1).
Proof. intros Himp. rewrite init_with_run. by rewrite Himp. Qed.

(** The import of [core] stands outside the [try]: whatever exception it
    raises, one of class [Exception] included, is the outcome of the
    package body, which stops there, in the state that import left. *)
Theorem init_core_failure_unguarded w g e g1 :
  import_from w package package_dir "core" "example_function"
    (<["__doc__" := __doc__]> g) = (Raises e, g1) →
  init w g = (Raises e, g1).
Proof. apply init_with_core_raises. Qed.

Lemma init_core_failure_unguarded_witness :
  init (installed {[ "src/cts_caseload/core.py" :=
                       Fails (mk_exn ValueError (Message "bad")) ]}) ∅
  = (Raises (mk_exn ValueError (Message "bad")),
     <["__doc__" := __doc__]> ∅).
Proof.
  apply (init_core_failure_unguarded _ ∅ _ (<["__doc__" := __doc__]> ∅)).
  reflexivity.
Defined.

(** A [core] module file that runs but does not define
    [example_function] makes the package import fail with [ImportError];
    the module itself is by then bound in the package as [core]. *)
Theorem init_core_without_function w g file ns :
  find_spec w package_dir "core" = Some (ModuleFile file) →
  run w file = Executes ns →
  ns !! "example_function" = None →
  (init w g).1
  = Raises (mk_exn ImportError
              (CannotImportName "example_function" "cts_caseload.core"))
  ∧ (init w g).2 !! "core" = Some (VModule "cts_caseload.core").
Proof.
  intros Hspec Hrun Hns. unfold init.
  rewrite (init_with_core_raises _ _ w g
             (mk_exn ImportError
                (CannotImportName "example_function" "cts_caseload.core"))
             (<["core" := VModule "cts_caseload.core"]>
                (<["__doc__" := __doc__]> g))).
  - split; [done|]. cbn [snd]. by rewrite lookup_insert_eq.
  - unfold import_from. rewrite Hspec. cbn [load]. by rewrite Hrun, Hns.
Qed.

Lemma init_core_without_function_witness :
  (init (installed {[ "src/cts_caseload/core.py" :=
                        Executes {[ "other" := VNone ]} ]}) ∅).1
  = Raises (mk_exn ImportError
              (CannotImportName "example_function" "cts_caseload.core"))
  ∧ (init (installed {[ "src/cts_caseload/core.py" :=
                          Executes {[ "other" := VNone ]} ]}) ∅).2
    !! "core" = Some (VModule "cts_caseload.core").
Proof.
  apply (init_core_without_function _ ∅ "src/cts_caseload/core.py"
           {[ "other" := VNone ]});
    reflexivity.
Defined.

(** The version block raises only what running a file of the world
    raised, and only when that exception is outside [Exception]. *)
Theorem version_block_raises_only_outside_Exception w g e g' :
  version_block w g = (Raises e, g') →
  isinstance e Exception = false ∧ ∃ file, run w file = Fails e.
Proof. apply version_block_raises_inv. Qed.

Lemma version_block_raises_only_outside_Exception_witness :
  isinstance (mk_exn SystemExit (Message "")) Exception = false
  ∧ ∃ file,
      run (build (Fails (mk_exn SystemExit (Message "")))) file
      = Fails (mk_exn SystemExit (Message "")).
Proof.
  apply (version_block_raises_only_outside_Exception
           (build (Fails (mk_exn SystemExit (Message "")))) ∅
           (mk_exn SystemExit (Message "")) ∅).
  reflexivity.
Defined.

(** Once [core] has been imported, the only exceptions that can still
    leave the package body are those outside [Exception] raised while a
    file of [_version] runs. *)
Theorem init_after_core_fails_only_outside_Exception w g g1 e g' :
  import_from w package package_dir "core" "example_function"
    (<["__doc__" := __doc__]> g) = (Returns tt, g1) →
  init w g = (Raises e, g') →
  isinstance e Exception = false ∧ ∃ file, run w file = Fails e.
Proof.
  intros Hcore. unfold init. rewrite init_with_run, Hcore.
  destruct (version_block w g1) as [[[]|e'] g2] eqn:Hver; [discriminate|].
  intros [= <- <-]. by eapply version_block_raises_inv.
Qed.

Lemma init_after_core_fails_only_outside_Exception_witness :
  isinstance (mk_exn KeyboardInterrupt (Message "")) Exception = false
  ∧ ∃ file,
      run (build (Fails (mk_exn KeyboardInterrupt (Message "")))) file
      = Fails (mk_exn KeyboardInterrupt (Message "")).
Proof.
  eapply (init_after_core_fails_only_outside_Exception
            (build (Fails (mk_exn KeyboardInterrupt (Message "")))) ∅ _ _
            (init (build (Fails (mk_exn KeyboardInterrupt (Message ""))))
               ∅).2);
    reflexivity.
Defined.

End InitFailure.

(** ** What a completed run of the package body holds *)

Section InitState.

Implicit Types (w : world) (g : namespace) (e : exn).

(** After a completed run, [__author__] and [__email__] are the literals
    of the source: they are assigned after both imports. *)
Theorem init_metadata w g g' :
  init w g = (Returns tt, g') →
  g' !! "__author__" = Some (VStr "Stan. M")
  ∧ g' !! "__email__" = Some (VStr "mwagichimu@gmail.com").
Proof.
  intros (f & v & g2 & -> & _)%init_with_returns.
  split.
  - by rewrite lookup_insert_ne, lookup_insert_ne, lookup_insert_eq.
  - by rewrite lookup_insert_ne, lookup_insert_eq.
Qed.

Lemma init_metadata_witness :
  (init build_unversioned ∅).2 !! "__author__" = Some (VStr "Stan. M")
  ∧ (init build_unversioned ∅).2 !! "__email__"
    = Some (VStr "mwagichimu@gmail.com").
Proof.
  apply (init_metadata build_unversioned ∅ (init build_unversioned ∅).2).
  reflexivity.
Defined.

(** Where the import system finds [core], with [example_function] in it,
    and finds no module [_version] at all, the package import completes:
    the version it reports is the default ["999"], and its
    [example_function] is the object of [core]. *)
Theorem init_without_version_module w g s ns f :
  find_spec w package_dir "core" = Some s →
  load w "cts_caseload.core" s = Executes ns →
  ns !! "example_function" = Some f →
  find_spec w package_dir "_version" = None →
  ∃ g', init w g = (Returns tt, g')
        ∧ g' !! "__version__" = Some (VStr "999")
        ∧ g' !! "example_function" = Some f.
Proof.
  intros Hspec Hload Hns Hnone. unfold init. rewrite init_with_run.
  rewrite (import_from_found w package _ _ _ _ _ _ _ Hspec Hload Hns).
  rewrite (version_block_fallback w _ _ _
             (import_from_missing _ package _ _ _ _ Hnone) eq_refl).
  eexists. split; [reflexivity|]. split.
  - by rewrite !(lookup_insert_ne _ _ "__version__") by done;
      rewrite lookup_insert_eq.
  - by rewrite !(lookup_insert_ne _ _ "example_function") by done;
      rewrite lookup_insert_eq.
Qed.

Lemma init_without_version_module_witness :
  ∃ g', init build_unversioned ∅ = (Returns tt, g')
        ∧ g' !! "__version__" = Some (VStr "999")
        ∧ g' !! "example_function"
          = Some (VFunction "cts_caseload.core.example_function").
Proof.
  apply (init_without_version_module build_unversioned ∅
           (ModuleFile "src/cts_caseload/core.py")
           {[ "example_function" :=
                VFunction "cts_caseload.core.example_function" ]});
    reflexivity.
Defined.

End InitState.

(** ** The test module *)

Section TestFacts.

Implicit Types (w : world) (g : namespace) (e : exn).


(** The assertion of the test on a pair of integers: it passes exactly
    when the two sum to 3, and raises [AssertionError] otherwise, the
    globals unchanged either way. *)
Theorem test_example_function_on_ints (x y : Z) g :
  test_example_function (VInt x, VInt y) g
  = if decide (x + y = 3) then (Returns tt, g)
    else (Raises (mk_exn AssertionError (Message "")), g).
Proof.
  unfold test_example_function, example_function, mbind, Py_bind.
  cbn [fst snd].
  rewrite (PyNumber_Add_numeric (VInt x) (VInt y) x y g eq_refl eq_refl).
  unfold eq_int, as_long, assert.
  case_decide as Hsum.
  - by rewrite (proj2 (Z.eqb_eq _ _) Hsum).
  - by rewrite (proj2 (Z.eqb_neq _ _) Hsum).
Qed.

End TestFacts.
